(** * react-hooks-docs-website: the root layout and the catch-all page

    A shallow embedding of the two code files of the site,
    [src/app/layout.jsx] and [src/app/[[...mdxPath]]/page.jsx].

    Both files are glue around an external framework: the content lookup
    [importPage], the page-map retrieval [getPageMap], the system clock and
    the theme's components are not part of the repository.  The async
    functions of the source are therefore embedded as programs over the
    external calls they make ([prog]), and run against a [World] that
    answers those calls.  React elements are embedded as the trees that
    JSX builds ([node]). *)

From Stdlib Require Import String Ascii List ZArith Lia Bool.
From Stdlib Require Import DecimalString DecimalZ DecimalPos.
Import ListNotations.
Open Scope string_scope.
Open Scope list_scope.

Set Implicit Arguments.

(** ** Values the framework hands over *)

(** A settled promise: what [await] observes. *)
Inductive promise (E A : Type) : Type :=
| Fulfilled (a : A)
| Rejected (e : E).
Arguments Fulfilled {E A} a.
Arguments Rejected {E A} e.

(** [new Date()]: the only observation the source makes is [getFullYear]. *)
Record Date : Type := { getFullYear : Z }.

(** The object returned by a [next/font/google] loader. *)
Record Font : Type := { className : string; variable : string }.

(** The options object passed to a font loader. *)
Record FontOptions : Type := { opt_variable : string; subsets : list string }.

(** The [params] object of the route [app/[[...mdxPath]]]: the key
    [mdxPath] is absent ([None], JavaScript's [undefined]) or holds the
    captured path segments. *)
Record Params : Type := { mdxPath : option (list string) }.

Section Site.

(** Types owned by the framework; the source never looks inside them. *)
Context {Toc PageMap MDXComponent SearchParams FrontMatter Error : Type}.

(** Per-page metadata exported by a content file: [title] is always a
    string, [description] may be absent, the remaining keys are opaque. *)
Record Metadata : Type :=
  { title : string; description : option string; frontMatter : FrontMatter }.

(** What [importPage] resolves to: the compiled MDX module. *)
Record PageModule : Type :=
  { default : MDXComponent; toc : Toc; metadata : Metadata }.

(** The props Next.js passes to a page and to [generateMetadata]. *)
Record PageProps : Type :=
  { params : promise Error Params; searchParams : SearchParams }.

(** The object [generateMetadata] returns. *)
Record HeadMetadata : Type :=
  { head_title : string; head_description : option string }.

(** ** React elements *)

(** What stands in the type position of a JSX element. *)
Inductive etype : Type :=
| Host (tag : string)            (* html, body, b *)
| Banner                        (* nextra/components *)
| Navbar | Footer | Layout      (* nextra-theme-docs *)
| Wrapper                       (* getMDXComponents().wrapper *)
| MDX (c : MDXComponent).       (* the default export of a content file *)

(** React nodes and the values of their props. *)
#[warnings="-register-all"]
Inductive node : Type :=
| Null
| Text (s : string)
| Num (n : Z)
| Elem (type : etype) (props : list (string * value)) (children : list node)
with value : Type :=
| VStr (s : string)
| VTrue
| VNode (n : node)
| VToc (t : Toc)
| VMetadata (m : Metadata)
| VPageMap (pm : PageMap)
| VParams (p : Params)
| VSearchParams (sp : SearchParams).

(** Every node of a tree: the node itself, the nodes passed in props and
    the children, recursively. *)
Fixpoint subnodes (n : node) : list node :=
  n :: match n with
       | Elem _ ps cs =>
           (fix in_props (l : list (string * value)) : list node :=
              match l with
              | [] => []
              | (_, VNode m) :: l' => subnodes m ++ in_props l'
              | _ :: l' => in_props l'
              end) ps
           ++ (fix in_children (l : list node) : list node :=
                 match l with
                 | [] => []
                 | c :: l' => subnodes c ++ in_children l'
                 end) cs
       | _ => []
       end.

Definition contains (x doc : node) : Prop := In x (subnodes doc).

(** Every string a tree carries: text children, string props, and the
    title and description of a metadata prop. *)
Definition metadata_strings (m : Metadata) : list string :=
  title m :: match description m with Some d => [d] | None => [] end.

Fixpoint strings (n : node) : list string :=
  match n with
  | Null => []
  | Text s => [s]
  | Num _ => []
  | Elem _ ps cs =>
      (fix in_props (l : list (string * value)) : list string :=
         match l with
         | [] => []
         | (_, VStr s) :: l' => s :: in_props l'
         | (_, VNode m) :: l' => strings m ++ in_props l'
         | (_, VMetadata m) :: l' => metadata_strings m ++ in_props l'
         | _ :: l' => in_props l'
         end) ps
      ++ (fix in_children (l : list node) : list string :=
            match l with
            | [] => []
            | c :: l' => strings c ++ in_children l'
            end) cs
  end.

(** How React prints a number child: [String(n)], decimal for an integer. *)
Definition Number_toString (n : Z) : string :=
  NilZero.string_of_int (Z.to_int n).

(** The text a tree shows: the concatenation of its text and number
    children, in order. *)
Fixpoint textContent (n : node) : string :=
  match n with
  | Null => ""
  | Text s => s
  | Num z => Number_toString z
  | Elem _ _ cs =>
      (fix in_children (l : list node) : string :=
         match l with
         | [] => ""
         | c :: l' => (textContent c ++ in_children l')%string
         end) cs
  end.


(** ** Programs over the external calls *)

(** The calls the source makes outside the repository. *)
Inductive call : Type -> Type :=
| importPage (pathSegments : option (list string)) : call PageModule
| getPageMap : call PageMap
| Geist (options : FontOptions) : call Font
| Geist_Mono (options : FontOptions) : call Font
| newDate : call Date.

(** An async function body: return, throw, call-and-await, try/catch. *)
Inductive prog (A : Type) : Type :=
| Return (a : A)
| Throw (e : Error)
| Await (X : Type) (c : call X) (k : X -> prog A)
| TryCatch (body : prog A) (handler : Error -> prog A).
Arguments Return {A} a.
Arguments Throw {A} e.
Arguments Await {A X} c k.

(** [await p] for a promise the caller already holds. *)
Definition await {A B : Type} (p : promise Error A) (k : A -> prog B) : prog B :=
  match p with
  | Fulfilled a => k a
  | Rejected e => Throw e
  end.

(** One entry of the log of external calls. *)
Inductive invocation : Type :=
| Invoke (X : Type) (c : call X).
Arguments Invoke {X} c.

(** What answers the external calls: the clock, the font loaders of
    [next/font/google], the content files behind [importPage], and the page
    map behind [getPageMap]. *)
Record World : Type :=
  { now : Date;
    geist : FontOptions -> Font;
    geist_mono : FontOptions -> Font;
    content : option (list string) -> promise Error PageModule;
    page_map : promise Error PageMap }.

Definition perform (w : World) (X : Type) (c : call X) : promise Error X :=
  match c in call T return promise Error T with
  | importPage p => content w p
  | getPageMap => page_map w
  | Geist options => Fulfilled (geist w options)
  | Geist_Mono options => Fulfilled (geist_mono w options)
  | newDate => Fulfilled (now w)
  end.

(** Running a program: the calls made, in order, and the settled result. *)
Fixpoint run (A : Type) (w : World) (p : prog A)
  : list invocation * promise Error A :=
  match p with
  | Return a => ([], Fulfilled a)
  | Throw e => ([], Rejected e)
  | Await c k =>
      match perform w c with
      | Fulfilled x => let (t, r) := run w (k x) in (Invoke c :: t, r)
      | Rejected e => ([Invoke c], Rejected e)
      end
  | TryCatch body handler =>
      match run w body with
      | (t, Fulfilled a) => (t, Fulfilled a)
      | (t, Rejected e) => let (t', r) := run w (handler e) in (t ++ t', r)
      end
  end.

Definition calls (A : Type) (w : World) (p : prog A) : list invocation :=
  fst (run w p).

Definition outcome (A : Type) (w : World) (p : prog A) : promise Error A :=
  snd (run w p).

(** A program with no try/catch anywhere, whatever the calls answer. *)
Inductive catch_free (A : Type) : prog A -> Prop :=
| cf_return a : catch_free (Return a)
| cf_throw e : catch_free (Throw e)
| cf_await X (c : call X) k :
    (forall x, catch_free (k x)) -> catch_free (Await c k).

Notation "x <- c ;; k" := (Await c (fun x => k))
  (at level 61, c at next level, right associativity).

(** ** src/app/layout.jsx *)

(** The module-level constants of the file, as they stand once the module
    has been evaluated. *)
Record LayoutModule : Type :=
  { geistSans : Font;
    geistMono : Font;
    banner : node;
    navbar : node;
    footer : node }.

(** Evaluating the module: the two fonts are loaded, then the footer reads
    the clock with [new Date()]. *)
Definition layout_module : prog LayoutModule :=
  sans <- Geist {| opt_variable := "--font-geist-sans"; subsets := ["latin"] |} ;;
  mono <- Geist_Mono {| opt_variable := "--font-geist-mono"; subsets := ["latin"] |} ;;
  d <- newDate ;;
  Return
    {| geistSans := sans;
       geistMono := mono;
       banner :=
         Elem Banner [("storageKey", VStr "1234567890")]
              [Text "Get the offical eBook 🎉"];
       navbar :=
         Elem Navbar
              [("logo", VNode (Elem (Host "b") []
                                    [Text "A Comprehensive Look At All React Hooks"]))]
              [];
       footer :=
         Elem Footer []
              [Text "MIT "; Num (getFullYear d); Text " © Thomas Sankara"] |}.

(** The calls of one evaluation of the module: [new Date()] occurs once. *)
Definition loading : list invocation :=
  [Invoke (Geist {| opt_variable := "--font-geist-sans"; subsets := ["latin"] |});
   Invoke (Geist_Mono {| opt_variable := "--font-geist-mono"; subsets := ["latin"] |});
   Invoke newDate].

Definition RootLayout (M : LayoutModule) (children : node) : prog node :=
  pm <- getPageMap ;;
  Return
    (Elem (Host "html")
       [("lang", VStr "en"); ("dir", VStr "ltr"); ("suppressHydrationWarning", VTrue)]
       [Elem (Host "body")
          [("className",
            VStr (variable (geistSans M) ++ " " ++ variable (geistMono M)
                  ++ " antialiased")%string)]
          [Elem Layout
             [("banner", VNode (banner M));
              ("navbar", VNode (navbar M));
              ("pageMap", VPageMap pm);
              ("docsRepositoryBase",
               VStr "https://github.com/sankthomas/a-comprehensive-look-at-all-react-hooks");
              ("footer", VNode (footer M))]
             [children]]]).

(** ** src/app/[[...mdxPath]]/page.jsx

    [generateStaticParams] is the framework's
    [generateStaticParamsFor("mdxPath")]: it lists the paths of the page
    map for the build and runs no code of the repository.  [Wrapper] is
    the [wrapper] entry of the MDX components, an opaque component. *)

Definition generateMetadata (props : PageProps) : prog HeadMetadata :=
  await (params props) (fun ps =>
  m <- importPage (mdxPath ps) ;;
  Return
    {| head_title :=
         (title (metadata m) ++ " | A Comprehensive Look at All React Hooks")%string;
       head_description := description (metadata m) |}).

(** [<MDXContent {...props} params={params} />]: the props of the page are
    spread and the key [params] is overwritten by the awaited object. *)
Definition Page (props : PageProps) : prog node :=
  await (params props) (fun ps =>
  result <- importPage (mdxPath ps) ;;
  Return
    (Elem Wrapper
       [("toc", VToc (toc result)); ("metadata", VMetadata (metadata result))]
       [Elem (MDX (default result))
          [("params", VParams ps);
           ("searchParams", VSearchParams (searchParams props))]
          []])).

(** ** The route

    The page file sits in the directory [app/[[...mdxPath]]], the only
    route of the site.  By the convention of Next.js that is an optional
    catch-all segment: every URL path matches, the captured segments are
    stored under the key [mdxPath], and for the site root the key is
    absent. *)
Definition route_params (url : list string) : Params :=
  {| mdxPath := match url with [] => None | _ :: _ => Some url end |}.

(** The props of a request for the URL path [url]. *)
Definition request (url : list string) (sp : SearchParams) : PageProps :=
  {| params := Fulfilled (route_params url); searchParams := sp |}.

(** ** Reading a rendered tree back *)

(** Property access on a props object. *)
Fixpoint prop (k : string) (ps : list (string * value)) : option value :=
  match ps with
  | [] => None
  | (k', v) :: ps' => if String.eqb k k' then Some v else prop k ps'
  end.

Definition type_of (n : node) : option etype :=
  match n with
  | Elem t _ _ => Some t
  | _ => None
  end.

(** The metadata a rendered page hands to its [Wrapper]. *)
Definition rendered_metadata (n : node) : option Metadata :=
  match n with
  | Elem Wrapper ps _ =>
      match prop "metadata" ps with
      | Some (VMetadata m) => Some m
      | _ => None
      end
  | _ => None
  end.

(** The footer a rendered document hands to its [Layout]
    (html > body > Layout). *)
Definition footer_of (doc : node) : option node :=
  match doc with
  | Elem _ _ [Elem _ _ [Elem Layout ps _]] =>
      match prop "footer" ps with
      | Some (VNode f) => Some f
      | _ => None
      end
  | _ => None
  end.

(** The props and children of an element. *)
Definition props_of (n : node) : list (string * value) :=
  match n with
  | Elem _ ps _ => ps
  | _ => []
  end.

Definition children_of (n : node) : list node :=
  match n with
  | Elem _ _ cs => cs
  | _ => []
  end.

(** The [Layout] element of a rendered document (html > body > Layout). *)
Definition layout_of (doc : node) : option node :=
  match doc with
  | Elem _ _ [Elem _ _ [Elem Layout ps cs]] => Some (Elem Layout ps cs)
  | _ => None
  end.

(** The class name a rendered document puts on its body (html > body). *)
Definition body_className (doc : node) : option value :=
  match doc with
  | Elem _ _ [Elem _ ps _] => prop "className" ps
  | _ => None
  end.

(** The content element a rendered page puts inside its [Wrapper]. *)
Definition content_element (out : node) : option node :=
  match out with
  | Elem Wrapper _ [c] => Some c
  | _ => None
  end.

End Site.

Arguments Metadata : clear implicits.
Arguments PageModule : clear implicits.
Arguments PageProps : clear implicits.
Arguments World : clear implicits.
Arguments node : clear implicits.
Arguments LayoutModule : clear implicits.
Arguments Throw {Toc PageMap MDXComponent FrontMatter Error A} e.

(** ** A site to run the functions on

    Concrete framework types and two worlds that differ only in the year
    the clock shows.  The content is one page of the repository,
    [content/usecontext.mdx], whose first heading is "useContext". *)
Module Example.

Definition Toc : Type := list string.
Definition PageMap : Type := list string.
Definition MDXComponent : Type := string.
Definition SearchParams : Type := list (string * string).
Definition FrontMatter : Type := unit.
Definition Error : Type := string.

Definition usecontext : PageModule Toc MDXComponent FrontMatter :=
  {| default := "content/usecontext.mdx";
     toc := ["a-section-about-props"; "accessing-props"; "when-to-use-context"];
     metadata := {| title := "useContext"; description := None; frontMatter := tt |} |}.

Definition files (path : option (list string))
  : promise Error (PageModule Toc MDXComponent FrontMatter) :=
  match path with
  | Some [s] => if String.eqb s "usecontext" then Fulfilled usecontext
                else Rejected "not found"
  | _ => Rejected "not found"
  end.

Definition font (name : string) (options : FontOptions) : Font :=
  {| className := name; variable := opt_variable options |}.

Definition site (year : Z) : World Toc PageMap MDXComponent FrontMatter Error :=
  {| now := {| getFullYear := year |};
     geist := font "geist";
     geist_mono := font "geist-mono";
     content := files;
     page_map := Fulfilled ["usecontext"] |}.

(** A world in which the page map cannot be retrieved. *)
Definition no_page_map : World Toc PageMap MDXComponent FrontMatter Error :=
  {| now := {| getFullYear := 2026 |};
     geist := font "geist";
     geist_mono := font "geist-mono";
     content := files;
     page_map := Rejected "no page map" |}.

Definition usecontext_request (sp : SearchParams)
  : PageProps SearchParams Error :=
  request ["usecontext"] sp.

Definition missing_request : PageProps SearchParams Error :=
  request ["usereducer"] [].

Definition nested_request : PageProps SearchParams Error :=
  request ["hooks"; "usereducer"] [].

(** Some page content to pass as children. *)
Definition page_text : node Toc PageMap MDXComponent SearchParams FrontMatter :=
  Text "page".

(** A second page of the repository, [content/useid.mdx], and a site that
    serves both. *)
Definition useid : PageModule Toc MDXComponent FrontMatter :=
  {| default := "content/useid.mdx";
     toc := [];
     metadata := {| title := "useId"; description := None; frontMatter := tt |} |}.

Definition two_files (path : option (list string))
  : promise Error (PageModule Toc MDXComponent FrontMatter) :=
  match path with
  | Some [s] => if String.eqb s "useid" then Fulfilled useid else files path
  | _ => Rejected "not found"
  end.

Definition two_pages : World Toc PageMap MDXComponent FrontMatter Error :=
  {| now := {| getFullYear := 2026 |};
     geist := font "geist";
     geist_mono := font "geist-mono";
     content := two_files;
     page_map := Fulfilled ["usecontext"; "useid"] |}.

Definition useid_request : PageProps SearchParams Error :=
  request ["useid"] [].

(** A site with a page map and no content file at all. *)
Definition no_content : World Toc PageMap MDXComponent FrontMatter Error :=
  {| now := {| getFullYear := 2024 |};
     geist := font "inter";
     geist_mono := font "courier";
     content := fun _ => Rejected "not found";
     page_map := Fulfilled ["usecontext"] |}.


(** Props whose [params] promise is rejected. *)
Definition rejected_request : PageProps SearchParams Error :=
  {| params := Rejected "aborted"; searchParams := [("tab", "api")] |}.

End Example.

Section Properties.

Context {Toc PageMap MDXComponent SearchParams FrontMatter Error : Type}.

Abbreviation World := (World Toc PageMap MDXComponent FrontMatter Error).
Abbreviation PageModule := (PageModule Toc MDXComponent FrontMatter).
Abbreviation PageProps := (PageProps SearchParams Error).
Abbreviation node := (node Toc PageMap MDXComponent SearchParams FrontMatter).
Abbreviation LayoutModule := (LayoutModule Toc PageMap MDXComponent SearchParams FrontMatter).
Abbreviation Page :=
  (@Page Toc PageMap MDXComponent SearchParams FrontMatter Error).
Abbreviation generateMetadata :=
  (@generateMetadata Toc PageMap MDXComponent SearchParams FrontMatter Error).
Abbreviation RootLayout :=
  (@RootLayout Toc PageMap MDXComponent SearchParams FrontMatter Error).
Abbreviation layout_module :=
  (@layout_module Toc PageMap MDXComponent SearchParams FrontMatter Error).
Abbreviation request := (@request SearchParams Error).

(** ** Running the source's functions *)

Lemma layout_module_run (w0 : World) :
  exists M : LayoutModule,
    run w0 layout_module = (loading, Fulfilled M) /\
    footer M = Elem Footer []
                 [Text "MIT "; Num (getFullYear (now w0)); Text " © Thomas Sankara"] /\
    type_of (banner M) = Some Banner /\
    type_of (navbar M) = Some Navbar.
Proof.
  eexists. split; [reflexivity|]. cbn. auto.
Qed.

Lemma RootLayout_run (w : World) (M : LayoutModule) (children : node) (pm : PageMap) :
  page_map w = Fulfilled pm ->
  run w (RootLayout M children) =
  ([Invoke getPageMap],
   Fulfilled
     (Elem (Host "html")
        [("lang", VStr "en"); ("dir", VStr "ltr"); ("suppressHydrationWarning", VTrue)]
        [Elem (Host "body")
           [("className",
             VStr (variable (geistSans M) ++ " " ++ variable (geistMono M)
                   ++ " antialiased")%string)]
           [Elem Layout
              [("banner", VNode (banner M));
               ("navbar", VNode (navbar M));
               ("pageMap", VPageMap pm);
               ("docsRepositoryBase",
                VStr "https://github.com/sankthomas/a-comprehensive-look-at-all-react-hooks");
               ("footer", VNode (footer M))]
              [children]]])).
Proof.
  intros Hpm. unfold RootLayout. cbn [run perform]. rewrite Hpm. reflexivity.
Qed.

Lemma RootLayout_run_rejected (w : World) (M : LayoutModule) (children : node) (e : Error) :
  page_map w = Rejected e ->
  run w (RootLayout M children) = ([Invoke getPageMap], Rejected e).
Proof.
  intros Hpm. unfold RootLayout. cbn [run perform]. rewrite Hpm. reflexivity.
Qed.

Lemma generateMetadata_run (w : World) (props : PageProps) (ps : Params) (m : PageModule) :
  params props = Fulfilled ps ->
  content w (mdxPath ps) = Fulfilled m ->
  run w (generateMetadata props) =
  ([Invoke (importPage (mdxPath ps))],
   Fulfilled
     {| head_title :=
          (title (metadata m) ++ " | A Comprehensive Look at All React Hooks")%string;
        head_description := description (metadata m) |}).
Proof.
  intros Hps Hm. unfold generateMetadata. rewrite Hps.
  cbn [await run perform]. rewrite Hm. reflexivity.
Qed.

Lemma generateMetadata_run_rejected (w : World) (props : PageProps) (ps : Params) (e : Error) :
  params props = Fulfilled ps ->
  content w (mdxPath ps) = Rejected e ->
  run w (generateMetadata props) = ([Invoke (importPage (mdxPath ps))], Rejected e).
Proof.
  intros Hps Hm. unfold generateMetadata. rewrite Hps.
  cbn [await run perform]. rewrite Hm. reflexivity.
Qed.

Lemma Page_run (w : World) (props : PageProps) (ps : Params) (m : PageModule) :
  params props = Fulfilled ps ->
  content w (mdxPath ps) = Fulfilled m ->
  run w (Page props) =
  ([Invoke (importPage (mdxPath ps))],
   Fulfilled
     (Elem Wrapper
        [("toc", VToc (toc m)); ("metadata", VMetadata (metadata m))]
        [Elem (MDX (default m))
           [("params", VParams ps);
            ("searchParams", VSearchParams (searchParams props))]
           []])).
Proof.
  intros Hps Hm. unfold Page. rewrite Hps.
  cbn [await run perform]. rewrite Hm. reflexivity.
Qed.

Lemma Page_run_rejected (w : World) (props : PageProps) (ps : Params) (e : Error) :
  params props = Fulfilled ps ->
  content w (mdxPath ps) = Rejected e ->
  run w (Page props) = ([Invoke (importPage (mdxPath ps))], Rejected e).
Proof.
  intros Hps Hm. unfold Page. rewrite Hps.
  cbn [await run perform]. rewrite Hm. reflexivity.
Qed.

(** The language does catch: a handler turns a rejection into a result.
    None of the source's functions uses it (see C5). *)
Lemma TryCatch_catches (A : Type) (w : World) (e : Error) (a : A) :
  run w (TryCatch (Throw e) (fun _ => Return a)) = ([], Fulfilled a).
Proof. reflexivity. Qed.

(** A rejected [props.params] is rethrown as it is, before any call. *)
Lemma params_rejection_propagates (w : World) (props : PageProps) (e : Error) :
  params props = Rejected e ->
  run w (Page props) = ([], Rejected e) /\
  run w (generateMetadata props) = ([], Rejected e).
Proof.
  intros Hps. unfold Page, generateMetadata. rewrite Hps. split; reflexivity.
Qed.

(** ** Printing the year *)

Lemma to_int_printable (z : Z) :
  Z.to_int z <> Decimal.Pos Decimal.Nil /\ Z.to_int z <> Decimal.Neg Decimal.Nil.
Proof.
  destruct z as [|p|p]; cbn; split; try discriminate;
    intros H; injection H as H; exact (Unsigned.to_uint_nonnil p H).
Qed.

Lemma Number_toString_inj (a b : Z) :
  Number_toString a = Number_toString b -> a = b.
Proof.
  unfold Number_toString. intros H.
  destruct (to_int_printable a) as [Ha1 Ha2].
  destruct (to_int_printable b) as [Hb1 Hb2].
  pose proof (NilZero.isi _ Ha1 Ha2) as Ia.
  pose proof (NilZero.isi _ Hb1 Hb2) as Ib.
  rewrite H, Ib in Ia. injection Ia as Ia.
  rewrite <- (DecimalZ.of_to a), <- (DecimalZ.of_to b). now rewrite Ia.
Qed.

Lemma append_length (a b : string) :
  String.length (a ++ b)%string = String.length a + String.length b.
Proof.
  induction a as [|c a IH]; cbn; [reflexivity|]. now rewrite IH.
Qed.

Lemma append_cancel_r (s a b : string) :
  (a ++ s)%string = (b ++ s)%string -> a = b.
Proof.
  revert b. induction a as [|c a IH]; intros [|d b] H; cbn in H.
  - reflexivity.
  - apply (f_equal String.length) in H. cbn in H.
    rewrite append_length in H. lia.
  - apply (f_equal String.length) in H. cbn in H.
    rewrite append_length in H. lia.
  - injection H as Hc Hs. subst d. f_equal. now apply IH.
Qed.

(** The footer texts of two years coincide only when the years do. *)
Lemma footer_text_inj (y y' : Z) :
  ("MIT " ++ Number_toString y ++ " © Thomas Sankara")%string =
  ("MIT " ++ Number_toString y' ++ " © Thomas Sankara")%string ->
  y = y'.
Proof.
  intros H. cbn in H. injection H as H.
  apply Number_toString_inj. exact (append_cancel_r _ _ _ H).
Qed.

(** ** Subtrees *)

Lemma contains_refl (x : node) : contains x x.
Proof. unfold contains. destruct x; cbn; auto. Qed.

Lemma contains_child (x c : node) (t : etype) ps cs :
  In c cs -> contains x c -> contains x (Elem t ps cs).
Proof.
  unfold contains. intros Hc Hx. cbn [subnodes]. right.
  apply in_or_app. right.
  induction cs as [|c' cs IH]; [destruct Hc|].
  apply in_or_app. destruct Hc as [->|Hc]; [left; exact Hx | right; auto].
Qed.


(** ** The claims *)

(** C1: for a content page that [importPage] resolves, the title returned
    by [generateMetadata] is the content file's own metadata title followed
    by the fixed suffix [" | A Comprehensive Look at All React Hooks"]. *)
Theorem generateMetadata_title
  (w : World) (props : PageProps) (ps : Params) (m : PageModule) :
  params props = Fulfilled ps ->
  content w (mdxPath ps) = Fulfilled m ->
  exists md,
    outcome w (generateMetadata props) = Fulfilled md /\
    head_title md =
    (title (metadata m) ++ " | A Comprehensive Look at All React Hooks")%string.
Proof.
  intros Hps Hm. unfold outcome.
  rewrite (generateMetadata_run w props Hps Hm).
  eexists. split; reflexivity.
Qed.

(** C2: for a content page that [importPage] resolves, the description
    returned by [generateMetadata] is the description field of the content
    file's metadata, unchanged (absent stays absent). *)
Theorem generateMetadata_description
  (w : World) (props : PageProps) (ps : Params) (m : PageModule) :
  params props = Fulfilled ps ->
  content w (mdxPath ps) = Fulfilled m ->
  exists md,
    outcome w (generateMetadata props) = Fulfilled md /\
    head_description md = description (metadata m).
Proof.
  intros Hps Hm. unfold outcome.
  rewrite (generateMetadata_run w props Hps Hm).
  eexists. split; reflexivity.
Qed.



(** C5: a failure of the content lookup makes [Page] and [generateMetadata]
    fail with the very same error after that single call, a failure of the
    page-map retrieval does the same to [RootLayout], and none of the three
    bodies holds a try/catch. *)
Theorem errors_propagate_unchanged
  (w w' : World) (props : PageProps) (ps : Params)
  (M : LayoutModule) (children : node) (e e' : Error) :
  params props = Fulfilled ps ->
  content w (mdxPath ps) = Rejected e ->
  page_map w' = Rejected e' ->
  run w (Page props) = ([Invoke (importPage (mdxPath ps))], Rejected e) /\
  run w (generateMetadata props) = ([Invoke (importPage (mdxPath ps))], Rejected e) /\
  run w' (RootLayout M children) = ([Invoke getPageMap], Rejected e') /\
  catch_free (Page props) /\
  catch_free (generateMetadata props) /\
  catch_free (RootLayout M children).
Proof.
  intros Hps Hm Hpm.
  split; [exact (Page_run_rejected w props Hps Hm)|].
  split; [exact (generateMetadata_run_rejected w props Hps Hm)|].
  split; [exact (RootLayout_run_rejected w' M children Hpm)|].
  unfold Page, generateMetadata, RootLayout. rewrite Hps. cbn [await].
  repeat split; constructor; intros; constructor.
Qed.

(** C6: every URL path reaches the one route of the site, and the list
    under [params.mdxPath] is what [Page] and [generateMetadata] hand to
    [importPage], in their only external call: for a URL with segments
    that is the list of segments itself. *)
Theorem path_passed_verbatim
  (w : World) (props : PageProps) (ps : Params)
  (s : string) (url : list string) (sp : SearchParams) :
  params props = Fulfilled ps ->
  calls w (Page props) = [Invoke (importPage (mdxPath ps))] /\
  calls w (generateMetadata props) = [Invoke (importPage (mdxPath ps))] /\
  params (request (s :: url) sp) = Fulfilled {| mdxPath := Some (s :: url) |} /\
  calls w (Page (request (s :: url) sp)) = [Invoke (importPage (Some (s :: url)))] /\
  calls w (generateMetadata (request (s :: url) sp)) =
  [Invoke (importPage (Some (s :: url)))].
Proof.
  intros Hps.
  assert (page : forall q qs, params q = Fulfilled qs ->
                 calls w (Page q) = [Invoke (importPage (mdxPath qs))]).
  { intros q qs Hq. unfold calls.
    destruct (content w (mdxPath qs)) as [m|e] eqn:Hm.
    - now rewrite (Page_run w q Hq Hm).
    - now rewrite (Page_run_rejected w q Hq Hm). }
  assert (meta : forall q qs, params q = Fulfilled qs ->
                 calls w (generateMetadata q) = [Invoke (importPage (mdxPath qs))]).
  { intros q qs Hq. unfold calls.
    destruct (content w (mdxPath qs)) as [m|e] eqn:Hm.
    - now rewrite (generateMetadata_run w q Hq Hm).
    - now rewrite (generateMetadata_run_rejected w q Hq Hm). }
  split; [exact (page _ _ Hps)|].
  split; [exact (meta _ _ Hps)|].
  split; [reflexivity|].
  split; [exact (page (request (s :: url) sp) _ eq_refl)|].
  exact (meta (request (s :: url) sp) _ eq_refl).
Qed.

(** C8: the site root (no path segments) is served by the same handler
    with [params.mdxPath] absent; [Page] and [generateMetadata] then call
    [importPage] with the absent value, and the root renders exactly when
    the lookup resolves there: what the lookup answers at the absent path
    is the outcome of the handler. *)
Theorem root_lookup_at_absent_path (w : World) (sp : SearchParams) :
  params (request [] sp) = Fulfilled {| mdxPath := None |} /\
  calls w (Page (request [] sp)) = [Invoke (importPage None)] /\
  calls w (generateMetadata (request [] sp)) = [Invoke (importPage None)] /\
  match content w None with
  | Fulfilled m =>
      (exists out, outcome w (Page (request [] sp)) = Fulfilled out /\
                   rendered_metadata out = Some (metadata m)) /\
      (exists md, outcome w (generateMetadata (request [] sp)) = Fulfilled md)
  | Rejected e =>
      outcome w (Page (request [] sp)) = Rejected e /\
      outcome w (generateMetadata (request [] sp)) = Rejected e
  end.
Proof.
  split; [reflexivity|].
  unfold calls, outcome.
  destruct (content w None) as [m|e] eqn:Hm.
  - rewrite (Page_run w (request [] sp) (ps := {| mdxPath := None |}) eq_refl Hm).
    rewrite (generateMetadata_run w (request [] sp)
               (ps := {| mdxPath := None |}) eq_refl Hm).
    cbn. repeat split; eexists; eauto.
  - rewrite (Page_run_rejected w (request [] sp)
               (ps := {| mdxPath := None |}) eq_refl Hm).
    rewrite (generateMetadata_run_rejected w (request [] sp)
               (ps := {| mdxPath := None |}) eq_refl Hm).
    cbn. auto.
Qed.

(** C7, as amended: two renders by one process, that is with the module
    constants of one evaluation of the layout module, given the same props
    (the path segments and whatever else the request carries), the same
    content file and the same page map, make the same calls and produce the
    same output, whatever else differs between the two moments (the clock
    in particular). *)
Theorem renders_agree_within_a_process
  (w1 w2 : World) (props : PageProps) (M : LayoutModule) (children : node) :
  (forall ps, params props = Fulfilled ps ->
              content w1 (mdxPath ps) = content w2 (mdxPath ps)) ->
  page_map w1 = page_map w2 ->
  run w1 (Page props) = run w2 (Page props) /\
  run w1 (generateMetadata props) = run w2 (generateMetadata props) /\
  run w1 (RootLayout M children) = run w2 (RootLayout M children).
Proof.
  intros Hc Hpm. unfold Page, generateMetadata, RootLayout.
  cbn [run perform]. rewrite Hpm.
  destruct (params props) as [ps|e]; cbn [await run perform].
  - rewrite (Hc ps eq_refl). auto.
  - auto.
Qed.

(** C9: the year in the footer is read by the single [new Date()] of the
    module evaluation and by no render.  Renders served from one evaluation
    of the module (at [w1] and [w2], with any clocks) hand the same footer
    to the layout, with text "MIT <year> © Thomas Sankara" for the year of
    the evaluation; an evaluation in another year gives another text. *)
Theorem footer_year_read_at_module_load
  (w0 w0' w1 w2 : World) (children1 children2 : node) (pm1 pm2 : PageMap) :
  page_map w1 = Fulfilled pm1 ->
  page_map w2 = Fulfilled pm2 ->
  getFullYear (now w0) <> getFullYear (now w0') ->
  exists (M M' : LayoutModule) (doc1 doc2 doc1' f f' : node),
    run w0 layout_module = (loading, Fulfilled M) /\
    run w0' layout_module = (loading, Fulfilled M') /\
    run w1 (RootLayout M children1) = ([Invoke getPageMap], Fulfilled doc1) /\
    run w2 (RootLayout M children2) = ([Invoke getPageMap], Fulfilled doc2) /\
    run w1 (RootLayout M' children1) = ([Invoke getPageMap], Fulfilled doc1') /\
    footer_of doc1 = Some f /\
    footer_of doc2 = Some f /\
    footer_of doc1' = Some f' /\
    textContent f =
    ("MIT " ++ Number_toString (getFullYear (now w0)) ++ " © Thomas Sankara")%string /\
    textContent f' =
    ("MIT " ++ Number_toString (getFullYear (now w0')) ++ " © Thomas Sankara")%string /\
    textContent f <> textContent f'.
Proof.
  intros Hpm1 Hpm2 Hyear.
  do 7 eexists.
  split; [reflexivity|].
  split; [reflexivity|].
  split; [apply RootLayout_run; exact Hpm1|].
  split; [apply RootLayout_run; exact Hpm2|].
  split; [apply RootLayout_run; exact Hpm1|].
  split; [reflexivity|].
  split; [reflexivity|].
  split; [reflexivity|].
  split; [reflexivity|].
  split; [reflexivity|].
  intros H. apply Hyear. apply footer_text_inj. exact H.
Qed.

(** C10: with the same props, [generateMetadata] and [Page] each call
    [importPage] once, with the same path segments; when the lookup answers
    the second call as it answered the first, with the module [m], the
    body that [Page] returns renders that module (the single child of its
    wrapper is the element of [m]'s default export, and the wrapper is
    handed [m]'s metadata), and the title and description returned for the
    head are built from that same metadata. *)
Theorem head_agrees_with_body
  (w1 w2 : World) (props : PageProps) (ps : Params) (m : PageModule) :
  params props = Fulfilled ps ->
  content w1 (mdxPath ps) = Fulfilled m ->
  content w2 (mdxPath ps) = content w1 (mdxPath ps) ->
  calls w1 (generateMetadata props) = [Invoke (importPage (mdxPath ps))] /\
  calls w2 (Page props) = [Invoke (importPage (mdxPath ps))] /\
  exists md body c,
    outcome w1 (generateMetadata props) = Fulfilled md /\
    outcome w2 (Page props) = Fulfilled body /\
    content_element body = Some c /\
    type_of c = Some (MDX (default m)) /\
    prop "params" (props_of c) = Some (VParams ps) /\
    rendered_metadata body = Some (metadata m) /\
    head_title md =
    (title (metadata m) ++ " | A Comprehensive Look at All React Hooks")%string /\
    head_description md = description (metadata m).
Proof.
  intros Hps Hm1 Hm2. rewrite Hm1 in Hm2. unfold calls, outcome.
  rewrite (generateMetadata_run w1 props Hps Hm1).
  rewrite (Page_run w2 props Hps Hm2).
  split; [reflexivity|]. split; [reflexivity|].
  do 3 eexists. repeat split.
Qed.

(** ** Further properties of the two files *)

(** X1: when the [params] promise of the props is rejected, [Page] and
    [generateMetadata] reject with that same error and make no external
    call at all: the content lookup is never started. *)
Theorem rejected_params_stop_before_lookup
  (w : World) (props : PageProps) (e : Error) :
  params props = Rejected e ->
  calls w (Page props) = [] /\
  outcome w (Page props) = Rejected e /\
  calls w (generateMetadata props) = [] /\
  outcome w (generateMetadata props) = Rejected e.
Proof.
  intros Hps. unfold calls, outcome.
  destruct (params_rejection_propagates w props Hps) as [-> ->].
  repeat split.
Qed.

(** X2: [RootLayout] makes the single call [getPageMap] and hands the page
    map it got, as it is, to the [Layout] element under the key [pageMap];
    the children are the only child of that element. *)
Theorem RootLayout_passes_page_map
  (w : World) (M : LayoutModule) (children : node) (pm : PageMap) :
  page_map w = Fulfilled pm ->
  exists doc layout,
    run w (RootLayout M children) = ([Invoke getPageMap], Fulfilled doc) /\
    layout_of doc = Some layout /\
    prop "pageMap" (props_of layout) = Some (VPageMap pm) /\
    children_of layout = [children].
Proof.
  intros Hpm. rewrite (RootLayout_run w M children Hpm).
  do 2 eexists. split; [reflexivity|]. split; [reflexivity|].
  split; reflexivity.
Qed.

(** X3: the page functions read nothing of the world but the content file
    at the requested path, and the root layout nothing but the page map.
    [Page] and [generateMetadata] run alike in two worlds that agree on
    that content file, whatever their page maps, fonts and clocks;
    [RootLayout] runs alike in two worlds that agree on the page map,
    whatever their content files. *)
Theorem each_function_reads_its_own_source
  (w1 w2 w3 : World) (props : PageProps) (M : LayoutModule) (children : node) :
  (forall ps, params props = Fulfilled ps ->
              content w1 (mdxPath ps) = content w2 (mdxPath ps)) ->
  page_map w1 = page_map w3 ->
  run w1 (Page props) = run w2 (Page props) /\
  run w1 (generateMetadata props) = run w2 (generateMetadata props) /\
  run w1 (RootLayout M children) = run w3 (RootLayout M children).
Proof.
  intros Hc Hpm. unfold Page, generateMetadata, RootLayout.
  cbn [run perform]. rewrite Hpm.
  destruct (params props) as [ps|e]; cbn [await run perform].
  - rewrite (Hc ps eq_refl). auto.
  - auto.
Qed.

(** X4: [generateMetadata] looks at nothing of its props but [params]: two
    props with the same [params] and any other content (search params)
    give the same calls and the same result. *)
Theorem generateMetadata_reads_only_params
  (w : World) (props1 props2 : PageProps) :
  params props1 = params props2 ->
  run w (generateMetadata props1) = run w (generateMetadata props2).
Proof.
  intros Hps. unfold generateMetadata. now rewrite Hps.
Qed.

(** X5: content pages with different titles get different head titles:
    appending the fixed suffix never merges two titles. *)
Theorem different_titles_different_head_titles
  (w1 w2 : World) (props1 props2 : PageProps) (ps1 ps2 : Params)
  (m1 m2 : PageModule) :
  params props1 = Fulfilled ps1 ->
  params props2 = Fulfilled ps2 ->
  content w1 (mdxPath ps1) = Fulfilled m1 ->
  content w2 (mdxPath ps2) = Fulfilled m2 ->
  title (metadata m1) <> title (metadata m2) ->
  exists md1 md2,
    outcome w1 (generateMetadata props1) = Fulfilled md1 /\
    outcome w2 (generateMetadata props2) = Fulfilled md2 /\
    head_title md1 <> head_title md2.
Proof.
  intros Hps1 Hps2 Hm1 Hm2 Hne. unfold outcome.
  rewrite (generateMetadata_run w1 props1 Hps1 Hm1).
  rewrite (generateMetadata_run w2 props2 Hps2 Hm2).
  do 2 eexists. split; [reflexivity|]. split; [reflexivity|].
  cbn [head_title]. intros H. apply Hne.
  exact (append_cancel_r _ _ _ H).
Qed.

(** X6: the fonts are fixed when the module is evaluated, like the year:
    module evaluation never fails, and every document rendered from it
    carries on its body the [variable] class names that the two font
    loaders returned at that moment, followed by [antialiased], whatever
    the loaders would return at render time. *)
Theorem fonts_fixed_at_module_load
  (w0 w : World) (children : node) (pm : PageMap) :
  page_map w = Fulfilled pm ->
  exists (M : LayoutModule) (doc : node),
    run w0 layout_module = (loading, Fulfilled M) /\
    outcome w (RootLayout M children) = Fulfilled doc /\
    body_className doc =
    Some (VStr
            (variable (geist w0 {| opt_variable := "--font-geist-sans";
                                   subsets := ["latin"] |})
             ++ " "
             ++ variable (geist_mono w0 {| opt_variable := "--font-geist-mono";
                                           subsets := ["latin"] |})
             ++ " antialiased")%string).
Proof.
  intros Hpm. do 2 eexists.
  split; [reflexivity|].
  unfold outcome. rewrite RootLayout_run with (pm := pm) by exact Hpm.
  split; reflexivity.
Qed.

(** X7: the content is rendered with the path it was looked up with.  The
    single child of the wrapper is an element of the content file's
    default export; its [params] prop is the awaited params object, whose
    [mdxPath] is the argument of the one [importPage] call; it also gets
    the search params of the request, and the wrapper gets the content
    file's table of contents. *)
Theorem content_rendered_with_looked_up_path
  (w : World) (props : PageProps) (ps : Params) (m : PageModule) :
  params props = Fulfilled ps ->
  content w (mdxPath ps) = Fulfilled m ->
  exists out c path,
    run w (Page props) = ([Invoke (importPage path)], Fulfilled out) /\
    prop "toc" (props_of out) = Some (VToc (toc m)) /\
    content_element out = Some c /\
    type_of c = Some (MDX (default m)) /\
    prop "params" (props_of c) = Some (VParams {| mdxPath := path |}) /\
    prop "searchParams" (props_of c) = Some (VSearchParams (searchParams props)) /\
    children_of c = [].
Proof.
  intros Hps Hm. rewrite (Page_run w props Hps Hm).
  do 3 eexists. split; [reflexivity|]. destruct ps as [path]. cbn.
  repeat split.
Qed.

(** The output of [Page] for a resolved lookup carries the title. *)
Lemma Page_output_title_string
  (w : World) (props : PageProps) (ps : Params) (m : PageModule) :
  params props = Fulfilled ps ->
  content w (mdxPath ps) = Fulfilled m ->
  exists out,
    outcome w (Page props) = Fulfilled out /\
    calls w (Page props) = [Invoke (importPage (mdxPath ps))] /\
    In (title (metadata m)) (strings out).
Proof.
  intros Hps Hm. unfold outcome, calls. rewrite (Page_run w props Hps Hm).
  eexists. split; [reflexivity|]. split; [reflexivity|]. cbn. auto.
Qed.

(** Every string of the children is a string of the document around them. *)
Lemma RootLayout_strings
  (w : World) (M : LayoutModule) (children : node) (pm : PageMap) (s : string) :
  page_map w = Fulfilled pm ->
  In s (strings children) ->
  exists doc,
    outcome w (RootLayout M children) = Fulfilled doc /\ In s (strings doc).
Proof.
  intros Hpm Hs. unfold outcome. rewrite (RootLayout_run w M children Hpm).
  eexists. split; [reflexivity|].
  cbn [strings]. repeat (rewrite in_app_iff || cbn [In]). tauto.
Qed.

(** X8: the root layout drops nothing of the page it wraps: every string
    carried by the children (text, string props, metadata title and
    description) is carried by the returned document. *)
Theorem RootLayout_keeps_children_strings
  (w : World) (M : LayoutModule) (children : node) (pm : PageMap) (s : string) :
  page_map w = Fulfilled pm ->
  In s (strings children) ->
  exists doc,
    outcome w (RootLayout M children) = Fulfilled doc /\
    contains children doc /\
    In s (strings doc).
Proof.
  intros Hpm Hs.
  destruct (RootLayout_strings w M children s Hpm Hs) as (doc & Hdoc & Hin).
  exists doc. split; [exact Hdoc|]. split; [|exact Hin].
  unfold outcome in Hdoc. rewrite (RootLayout_run w M children Hpm) in Hdoc.
  injection Hdoc as <-.
  eapply contains_child; [left; reflexivity|].
  eapply contains_child; [left; reflexivity|].
  eapply contains_child; [left; reflexivity | apply contains_refl].
Qed.

(** X9: a served page, end to end.  When the lookup resolves for the
    request and the page map is retrieved, wrapping the output of [Page]
    in [RootLayout] gives a document that contains that output and carries
    the content's title, and the two functions together made exactly two
    external calls: the lookup and the page-map retrieval. *)
Theorem served_document_carries_title
  (w w' : World) (props : PageProps) (ps : Params) (m : PageModule)
  (M : LayoutModule) (pm : PageMap) :
  params props = Fulfilled ps ->
  content w (mdxPath ps) = Fulfilled m ->
  page_map w' = Fulfilled pm ->
  exists out doc,
    outcome w (Page props) = Fulfilled out /\
    outcome w' (RootLayout M out) = Fulfilled doc /\
    contains out doc /\
    In (title (metadata m)) (strings doc) /\
    (calls w (Page props) ++ calls w' (RootLayout M out))%list =
    [Invoke (importPage (mdxPath ps)); Invoke getPageMap].
Proof.
  intros Hps Hm Hpm.
  destruct (Page_output_title_string w props Hps Hm) as (out & Hout & Hcalls & Htitle).
  destruct (RootLayout_strings w' M out _ Hpm Htitle) as (doc & Hdoc & Hin).
  exists out, doc. split; [exact Hout|]. split; [exact Hdoc|].
  unfold outcome in Hdoc. unfold calls.
  rewrite (RootLayout_run w' M out Hpm) in *. injection Hdoc as <-.
  split.
  - eapply contains_child; [left; reflexivity|].
    eapply contains_child; [left; reflexivity|].
    eapply contains_child; [left; reflexivity | apply contains_refl].
  - split; [exact Hin|]. unfold calls in Hcalls. rewrite Hcalls. reflexivity.
Qed.

(** X10: head and body stand or fall together.  For the same props and
    the same answers of the lookup, [generateMetadata] resolves exactly
    when [Page] does, and when they fail they fail with the same error,
    after the same calls. *)
Theorem head_and_body_fail_together (w : World) (props : PageProps) :
  calls w (generateMetadata props) = calls w (Page props) /\
  match outcome w (Page props), outcome w (generateMetadata props) with
  | Fulfilled out, Fulfilled md =>
      exists shown,
        rendered_metadata out = Some shown /\
        head_description md = description shown
  | Rejected e, Rejected e' => e = e'
  | _, _ => False
  end.
Proof.
  unfold calls, outcome.
  destruct (params props) as [ps|e] eqn:Hps.
  - destruct (content w (mdxPath ps)) as [m|e] eqn:Hm.
    + rewrite (Page_run w props Hps Hm), (generateMetadata_run w props Hps Hm).
      split; [reflexivity|]. cbn. eexists. split; reflexivity.
    + rewrite (Page_run_rejected w props Hps Hm),
        (generateMetadata_run_rejected w props Hps Hm).
      split; reflexivity.
  - destruct (params_rejection_propagates w props Hps) as [-> ->].
    split; reflexivity.
Qed.

End Properties.

(** ** The theorems at work on the example site *)

Abbreviation example_Page :=
  (@Page Example.Toc Example.PageMap Example.MDXComponent Example.SearchParams
         Example.FrontMatter Example.Error).
Abbreviation example_generateMetadata :=
  (@generateMetadata Example.Toc Example.PageMap Example.MDXComponent
                     Example.SearchParams Example.FrontMatter Example.Error).
Abbreviation example_RootLayout :=
  (@RootLayout Example.Toc Example.PageMap Example.MDXComponent
               Example.SearchParams Example.FrontMatter Example.Error).

Lemma generateMetadata_title_witness :
  exists md,
    outcome (Example.site 2026) (generateMetadata (Example.usecontext_request [])) =
    Fulfilled md /\
    head_title md = "useContext | A Comprehensive Look at All React Hooks".
Proof.
  exact (generateMetadata_title (Example.site 2026)
           (Example.usecontext_request []) eq_refl eq_refl).
Defined.

Lemma generateMetadata_description_witness :
  exists md,
    outcome (Example.site 2026) (generateMetadata (Example.usecontext_request [])) =
    Fulfilled md /\
    head_description md = None.
Proof.
  exact (generateMetadata_description (Example.site 2026)
           (Example.usecontext_request []) eq_refl eq_refl).
Defined.



Lemma errors_propagate_unchanged_witness :
  exists M,
    outcome (Example.site 2025) layout_module = Fulfilled M /\
    run (Example.site 2026) (Page Example.missing_request) =
    ([Invoke (importPage (Some ["usereducer"]))], Rejected "not found") /\
    run (Example.site 2026) (generateMetadata Example.missing_request) =
    ([Invoke (importPage (Some ["usereducer"]))], Rejected "not found") /\
    run Example.no_page_map (RootLayout M Example.page_text) =
    ([Invoke getPageMap], Rejected "no page map") /\
    catch_free (example_Page Example.missing_request) /\
    catch_free (example_generateMetadata Example.missing_request) /\
    catch_free (example_RootLayout M Example.page_text).
Proof.
  eexists. split; [reflexivity|].
  exact (@errors_propagate_unchanged _ _ _ _ _ _
           (Example.site 2026) Example.no_page_map Example.missing_request
           {| mdxPath := Some ["usereducer"] |} _ Example.page_text
           "not found" "no page map" eq_refl eq_refl eq_refl).
Defined.

Lemma path_passed_verbatim_witness :
  calls (Example.site 2026) (Page (Example.usecontext_request [("tab", "api")])) =
  [Invoke (importPage (Some ["usecontext"]))] /\
  calls (Example.site 2026)
        (generateMetadata (Example.usecontext_request [("tab", "api")])) =
  [Invoke (importPage (Some ["usecontext"]))] /\
  calls (Example.site 2026) (Page Example.nested_request) =
  [Invoke (importPage (Some ["hooks"; "usereducer"]))].
Proof.
  destruct (@path_passed_verbatim _ _ _ _ _ _
              (Example.site 2026) (Example.usecontext_request [("tab", "api")])
              {| mdxPath := Some ["usecontext"] |}
              "hooks" ["usereducer"] (@nil (string * string)) eq_refl)
    as (Hpage & Hmeta & _ & Hurl & _).
  exact (conj Hpage (conj Hmeta Hurl)).
Defined.

Lemma renders_agree_within_a_process_witness :
  exists M,
    outcome (Example.site 2025) layout_module = Fulfilled M /\
    run (Example.site 2025) (Page (Example.usecontext_request [])) =
    run (Example.site 2026) (Page (Example.usecontext_request [])) /\
    run (Example.site 2025) (generateMetadata (Example.usecontext_request [])) =
    run (Example.site 2026) (generateMetadata (Example.usecontext_request [])) /\
    run (Example.site 2025) (RootLayout M Example.page_text) =
    run (Example.site 2026) (RootLayout M Example.page_text).
Proof.
  eexists. split; [reflexivity|].
  exact (@renders_agree_within_a_process _ _ _ _ _ _
           (Example.site 2025) (Example.site 2026)
           (Example.usecontext_request []) _ Example.page_text
           (fun _ _ => eq_refl) eq_refl).
Defined.

Lemma footer_year_read_at_module_load_witness :
  exists M M' doc1 doc2 doc1' f f',
    run (Example.site 2025) layout_module = (loading, Fulfilled M) /\
    run (Example.site 2026) layout_module = (loading, Fulfilled M') /\
    run (Example.site 2026) (RootLayout M Example.page_text) =
    ([Invoke getPageMap], Fulfilled doc1) /\
    run (Example.site 2027) (RootLayout M Null) =
    ([Invoke getPageMap], Fulfilled doc2) /\
    run (Example.site 2026) (RootLayout M' Example.page_text) =
    ([Invoke getPageMap], Fulfilled doc1') /\
    footer_of doc1 = Some f /\
    footer_of doc2 = Some f /\
    footer_of doc1' = Some f' /\
    textContent f = "MIT 2025 © Thomas Sankara" /\
    textContent f' = "MIT 2026 © Thomas Sankara" /\
    textContent f <> textContent f'.
Proof.
  assert (years : 2025%Z <> 2026%Z) by discriminate.
  exact (@footer_year_read_at_module_load _ _ _ _ _ _
           (Example.site 2025) (Example.site 2026)
           (Example.site 2026) (Example.site 2027)
           Example.page_text Null _ _ eq_refl eq_refl years).
Defined.

Lemma head_agrees_with_body_witness :
  calls (Example.site 2025) (generateMetadata (Example.usecontext_request [])) =
  [Invoke (importPage (Some ["usecontext"]))] /\
  calls (Example.site 2026) (Page (Example.usecontext_request [])) =
  [Invoke (importPage (Some ["usecontext"]))] /\
  exists md body c,
    outcome (Example.site 2025) (generateMetadata (Example.usecontext_request [])) =
    Fulfilled md /\
    outcome (Example.site 2026) (Page (Example.usecontext_request [])) =
    Fulfilled body /\
    content_element body = Some c /\
    type_of c = Some (MDX "content/usecontext.mdx") /\
    prop "params" (props_of c) = Some (VParams {| mdxPath := Some ["usecontext"] |}) /\
    rendered_metadata body = Some (metadata Example.usecontext) /\
    head_title md = "useContext | A Comprehensive Look at All React Hooks" /\
    head_description md = None.
Proof.
  exact (@head_agrees_with_body _ _ _ _ _ _
           (Example.site 2025) (Example.site 2026)
           (Example.usecontext_request []) _ _ eq_refl eq_refl eq_refl).
Defined.

(** C7 as stated does not hold.  With the same children, content files and
    page map, the root shell of a process started in 2025 and that of a
    process started in 2026 return different documents (the footer years
    differ); and two requests with the same path segments list but other
    search params get different outputs from [Page], which spreads all of
    its props into the content element. *)
Lemma renders_differ_counterexample :
  exists M M',
    outcome (Example.site 2025) layout_module = Fulfilled M /\
    outcome (Example.site 2026) layout_module = Fulfilled M' /\
    outcome (Example.site 2026) (RootLayout M Example.page_text) <>
    outcome (Example.site 2026) (RootLayout M' Example.page_text) /\
    params (Example.usecontext_request []) =
    params (Example.usecontext_request [("tab", "api")]) /\
    outcome (Example.site 2026) (Page (Example.usecontext_request [])) <>
    outcome (Example.site 2026) (Page (Example.usecontext_request [("tab", "api")])).
Proof.
  do 2 eexists.
  split; [reflexivity|].
  split; [reflexivity|].
  split; [cbv; intros H; discriminate H|].
  split; [reflexivity|].
  cbv. intros H. discriminate H.
Qed.

(** ** The further properties on the example sites *)

Lemma rejected_params_stop_before_lookup_witness :
  calls (Example.site 2026) (Page Example.rejected_request) = [] /\
  outcome (Example.site 2026) (Page Example.rejected_request) = Rejected "aborted" /\
  calls (Example.site 2026) (generateMetadata Example.rejected_request) = [] /\
  outcome (Example.site 2026) (generateMetadata Example.rejected_request) =
  Rejected "aborted".
Proof.
  exact (@rejected_params_stop_before_lookup _ _ _ _ _ _
           (Example.site 2026) Example.rejected_request "aborted" eq_refl).
Defined.

Lemma RootLayout_passes_page_map_witness :
  exists M,
    outcome (Example.site 2025) layout_module = Fulfilled M /\
    exists doc layout,
      run Example.two_pages (RootLayout M Example.page_text) =
      ([Invoke getPageMap], Fulfilled doc) /\
      layout_of doc = Some layout /\
      prop "pageMap" (props_of layout) = Some (VPageMap ["usecontext"; "useid"]) /\
      children_of layout = [Example.page_text].
Proof.
  eexists. split; [reflexivity|].
  exact (@RootLayout_passes_page_map _ _ _ _ _ _
           Example.two_pages _ Example.page_text _ eq_refl).
Defined.

Lemma each_function_reads_its_own_source_witness :
  exists M,
    outcome (Example.site 2025) layout_module = Fulfilled M /\
    run (Example.site 2026) (Page (Example.usecontext_request [])) =
    run Example.no_page_map (Page (Example.usecontext_request [])) /\
    run (Example.site 2026) (generateMetadata (Example.usecontext_request [])) =
    run Example.no_page_map (generateMetadata (Example.usecontext_request [])) /\
    run (Example.site 2026) (RootLayout M Example.page_text) =
    run Example.no_content (RootLayout M Example.page_text).
Proof.
  eexists. split; [reflexivity|].
  exact (@each_function_reads_its_own_source _ _ _ _ _ _
           (Example.site 2026) Example.no_page_map Example.no_content
           (Example.usecontext_request []) _ Example.page_text
           (fun _ _ => eq_refl) eq_refl).
Defined.

Lemma generateMetadata_reads_only_params_witness :
  params (Example.usecontext_request []) =
  params (Example.usecontext_request [("tab", "api")]) /\
  run (Example.site 2026) (generateMetadata (Example.usecontext_request [])) =
  run (Example.site 2026)
      (generateMetadata (Example.usecontext_request [("tab", "api")])).
Proof.
  split; [reflexivity|].
  exact (@generateMetadata_reads_only_params _ _ _ _ _ _
           (Example.site 2026) (Example.usecontext_request [])
           (Example.usecontext_request [("tab", "api")]) eq_refl).
Defined.

Lemma different_titles_different_head_titles_witness :
  exists md1 md2,
    outcome Example.two_pages (generateMetadata (Example.usecontext_request [])) =
    Fulfilled md1 /\
    outcome Example.two_pages (generateMetadata Example.useid_request) =
    Fulfilled md2 /\
    head_title md1 <> head_title md2.
Proof.
  assert (titles : title (metadata Example.usecontext) <>
                   title (metadata Example.useid)) by discriminate.
  exact (@different_titles_different_head_titles _ _ _ _ _ _
           Example.two_pages Example.two_pages
           (Example.usecontext_request []) Example.useid_request
           _ _ _ _ eq_refl eq_refl eq_refl eq_refl titles).
Defined.

Lemma fonts_fixed_at_module_load_witness :
  exists M doc,
    run (Example.site 2025) layout_module = (loading, Fulfilled M) /\
    outcome Example.no_content (RootLayout M Example.page_text) = Fulfilled doc /\
    body_className doc =
    Some (VStr "--font-geist-sans --font-geist-mono antialiased").
Proof.
  exact (@fonts_fixed_at_module_load _ _ _ _ _ _
           (Example.site 2025) Example.no_content Example.page_text _ eq_refl).
Defined.

Lemma content_rendered_with_looked_up_path_witness :
  exists out c path,
    run (Example.site 2026) (Page (Example.usecontext_request [("tab", "api")])) =
    ([Invoke (importPage path)], Fulfilled out) /\
    prop "toc" (props_of out) = Some (VToc (toc Example.usecontext)) /\
    content_element out = Some c /\
    type_of c = Some (MDX "content/usecontext.mdx") /\
    prop "params" (props_of c) = Some (VParams {| mdxPath := path |}) /\
    prop "searchParams" (props_of c) = Some (VSearchParams [("tab", "api")]) /\
    children_of c = [].
Proof.
  exact (@content_rendered_with_looked_up_path _ _ _ _ _ _
           (Example.site 2026) (Example.usecontext_request [("tab", "api")])
           _ _ eq_refl eq_refl).
Defined.

Lemma RootLayout_keeps_children_strings_witness :
  exists M,
    outcome (Example.site 2025) layout_module = Fulfilled M /\
    exists doc,
      outcome (Example.site 2026) (RootLayout M Example.page_text) = Fulfilled doc /\
      contains Example.page_text doc /\
      In "page" (strings doc).
Proof.
  eexists. split; [reflexivity|].
  exact (@RootLayout_keeps_children_strings _ _ _ _ _ _
           (Example.site 2026) _ Example.page_text _ "page"
           eq_refl (or_introl eq_refl)).
Defined.

Lemma served_document_carries_title_witness :
  exists M,
    outcome (Example.site 2025) layout_module = Fulfilled M /\
    exists out doc,
      outcome (Example.site 2026) (Page (Example.usecontext_request [])) =
      Fulfilled out /\
      outcome (Example.site 2026) (RootLayout M out) = Fulfilled doc /\
      contains out doc /\
      In "useContext" (strings doc) /\
      (calls (Example.site 2026) (Page (Example.usecontext_request []))
       ++ calls (Example.site 2026) (RootLayout M out))%list =
      [Invoke (importPage (Some ["usecontext"])); Invoke getPageMap].
Proof.
  eexists. split; [reflexivity|].
  exact (@served_document_carries_title _ _ _ _ _ _
           (Example.site 2026) (Example.site 2026)
           (Example.usecontext_request []) _ _ _ _ eq_refl eq_refl eq_refl).
Defined.

